(** * Portfolio site: the Projects collection, the page components and the
      container build, embedded from the repository's sources.

    The repository is declarative configuration and presentation glue on top
    of Next.js and Payload CMS.  The embedding follows the sources:
    - object literals (the collection config) are JavaScript values, with
      properties kept as an association list in source order;
    - JSX is a tree of host elements, component elements and text;
    - component functions are programs over the calls they make into the
      frameworks, run against an arbitrary framework that may fail;
    - the Dockerfile is its list of instructions;
    - the endpoint handlers, access functions, hooks and validators of the
      rules documents are functions on JavaScript run-time values; those
      that call out are programs over their calls, run against an arbitrary
      outside world. *)

From Stdlib Require Import String Ascii List Bool Arith ZArith Lia.
Import ListNotations.
Local Open Scope string_scope.
Local Open Scope list_scope.

(** ** JavaScript object literals *)

Module JS.

#[local] Set Warnings "-register-all".

(** The values that occur in the configuration literals: strings, booleans,
    arrays and objects.  An object keeps its properties in the order the
    literal lists them. *)
Inductive value : Type :=
| VStr (s : string)
| VBool (b : bool)
| VArr (items : list value)
| VObj (props : list (string * value)).

(** Property lookup [o.k]; [None] stands for [undefined]. *)
Fixpoint assoc {A : Type} (k : string) (l : list (string * A)) : option A :=
  match l with
  | [] => None
  | (k', v) :: rest => if String.eqb k k' then Some v else assoc k rest
  end.

Definition get (k : string) (v : value) : option value :=
  match v with
  | VObj props => assoc k props
  | _ => None
  end.

Definition keys (v : value) : list string :=
  match v with
  | VObj props => map fst props
  | _ => []
  end.

Definition items (v : value) : list value :=
  match v with
  | VArr l => l
  | _ => []
  end.

(** Every property name used in a literal, at any depth. *)
Fixpoint all_keys (v : value) : list string :=
  match v with
  | VObj props =>
      (fix go (l : list (string * value)) : list string :=
         match l with
         | [] => []
         | (k, x) :: rest => k :: all_keys x ++ go rest
         end) props
  | VArr l =>
      (fix go (l : list value) : list string :=
         match l with
         | [] => []
         | x :: rest => all_keys x ++ go rest
         end) l
  | _ => []
  end.

Definition has_key (k : string) (v : value) : bool :=
  match get k v with Some _ => true | None => false end.

Definition value_eqb_str (s : string) (o : option value) : bool :=
  match o with
  | Some (VStr s') => String.eqb s s'
  | _ => false
  end.

Definition is_true (o : option value) : bool :=
  match o with
  | Some (VBool true) => true
  | _ => false
  end.

End JS.

(** ** src/collections/Projects.ts *)

Module Collections.
Import JS.

Definition Projects : value :=
  VObj
    [ ("slug", VStr "projects");
      ("admin", VObj [ ("useAsTitle", VStr "title") ]);
      ("fields",
        VArr
          [ VObj [ ("name", VStr "title");
                   ("type", VStr "text");
                   ("required", VBool true);
                   ("label", VStr "実績名") ];
            VObj [ ("name", VStr "mainImage");
                   ("type", VStr "upload");
                   ("relationTo", VStr "media");
                   ("required", VBool false);
                   ("label", VStr "メイン画像") ];
            VObj [ ("name", VStr "url");
                   ("type", VStr "text");
                   ("label", VStr "サイトURL") ];
            VObj [ ("name", VStr "description");
                   ("type", VStr "textarea");
                   ("label", VStr "説明文") ] ]) ].

(** The field schema, [Projects.fields]. *)
Definition fields (c : value) : list value :=
  match get "fields" c with
  | Some a => items a
  | None => []
  end.

(** The field of a collection with a given name. *)
Definition field_named (n : string) (c : value) : option value :=
  find (fun f => value_eqb_str n (get "name" f)) (fields c).

Definition field_prop (k n : string) (c : value) : option value :=
  match field_named n c with
  | Some f => get k f
  | None => None
  end.

(** The fields marked required, [required: true]. *)
Definition required_fields (c : value) : list value :=
  filter (fun f => is_true (get "required" f)) (fields c).

(** The fields that point at another collection. *)
Definition relation_fields (c : value) : list value :=
  filter (has_key "relationTo") (fields c).

End Collections.

(** ** JSX element trees *)

Module JSX.

#[local] Set Warnings "-register-all".

(** An element is either a host element ([<div>], [<a>], ...) or a
    component element ([<Header />], [<Link>]), which React renders later
    by calling the component.  All props that occur in the sources are
    strings. *)
Inductive etype : Type :=
| Host (tag : string)
| Component (name : string).

Inductive node : Type :=
| Text (s : string)
| Element (ty : etype) (props : list (string * string)) (children : list node).

Definition etype_eqb (a b : etype) : bool :=
  match a, b with
  | Host x, Host y => String.eqb x y
  | Component x, Component y => String.eqb x y
  | _, _ => false
  end.

Definition type_of (n : node) : option etype :=
  match n with
  | Element ty _ _ => Some ty
  | Text _ => None
  end.

Definition prop (k : string) (n : node) : option string :=
  match n with
  | Element _ props _ => JS.assoc k props
  | Text _ => None
  end.

Definition children_of (n : node) : list node :=
  match n with
  | Element _ _ cs => cs
  | Text _ => []
  end.

(** The node reached by following child indices from the root. *)
Fixpoint get_at (path : list nat) (n : node) : option node :=
  match path with
  | [] => Some n
  | i :: rest =>
      match nth_error (children_of n) i with
      | Some c => get_at rest c
      | None => None
      end
  end.

Fixpoint set_nth {A : Type} (i : nat) (x : A) (l : list A) : list A :=
  match l, i with
  | [], _ => []
  | _ :: tl, O => x :: tl
  | hd :: tl, S j => hd :: set_nth j x tl
  end.

(** The tree with the node at [path] replaced; other positions are kept. *)
Fixpoint replace_at (path : list nat) (new : node) (n : node) : node :=
  match path with
  | [] => new
  | i :: rest =>
      match n with
      | Text _ => n
      | Element ty props cs =>
          match nth_error cs i with
          | Some c => Element ty props (set_nth i (replace_at rest new c) cs)
          | None => n
          end
      end
  end.

Definition is_type (ty : etype) (n : node) : bool :=
  match type_of n with
  | Some ty' => etype_eqb ty ty'
  | None => false
  end.

(** A link is an anchor host element or a [next/link] element; it is
    summarised by its target and its text. *)
Definition is_link (n : node) : bool :=
  is_type (Host "a") n || is_type (Component "Link") n.

Definition link_of (n : node) : option (string * list node) :=
  if is_link n then
    match prop "href" n with
    | Some h => Some (h, children_of n)
    | None => None
    end
  else None.

End JSX.

(** ** Calls into the frameworks *)

(** The types the frameworks hand to the repository's code.  Their
    definitions live in [next] and [payload]; the code only passes their
    values on, so they are left abstract. *)
Class FrameworkTypes : Type :=
  { Headers : Type;          (* what [headers()] of next/headers resolves to *)
    SanitizedConfig : Type;  (* what the promise exported by '@/payload.config' resolves to *)
    Payload : Type;          (* the Local API instance [getPayload] resolves to *)
    AuthResult : Type;       (* what [payload.auth] resolves to *)
    User : Type;             (* the type of its [user] property *)
    user : AuthResult -> User;
    FrameworkError : Type    (* what a rejected framework promise carries *) }.

Module Program.
Section WithFramework.
Context `{FT : FrameworkTypes}.

(** The awaited expressions of the page components, indexed by the type
    of the value they resolve to. *)
Variant call : Type -> Type :=
| getHeaders : call Headers
| awaitConfig : call SanitizedConfig
| getPayload (config : SanitizedConfig) : call Payload
| auth (payload : Payload) (headers : Headers) : call AuthResult.

(** What a [throw] or a rejected promise carries. *)
Inductive error : Type :=
| FromFramework (e : FrameworkError)
| Own (message : string).

(** The body of a component function: a [return], an awaited call
    followed by the rest of the body, a [throw] of the function's own,
    or a [try]/[catch]. *)
Inductive prog (R : Type) : Type :=
| Ret (r : R)
| Await {X : Type} (c : call X) (k : X -> prog R)
| Throw (message : string)
| TryCatch (body : prog R) (handler : error -> prog R).

Inductive result (R : Type) : Type :=
| Ok (r : R)
| Err (e : error).

(** A call that was made, without its result type. *)
Inductive called : Type :=
| Called {X : Type} (c : call X).

(** The expression a call awaits, as the sources spell it. *)
Definition callee (c : called) : string :=
  match c with
  | Called getHeaders => "getHeaders()"
  | Called awaitConfig => "config"
  | Called (getPayload _) => "getPayload({ config })"
  | Called (auth _ _) => "payload.auth({ headers })"
  end.

(** The frameworks: every call either resolves or rejects, and may
    change the frameworks' own state [W]. *)
Definition framework (W : Type) : Type :=
  forall X : Type, call X -> W -> (X + FrameworkError) * W.

Record run_result (W R : Type) : Type :=
  { outcome : result R;
    final : W;
    calls : list called }.

(** Evaluation of a body against a framework: an awaited call that
    rejects ends the function with the framework's error unless a
    [catch] of its own takes it. *)
Fixpoint run {W R : Type} (fw : framework W) (p : prog R) (w : W)
  : run_result W R :=
  match p with
  | Ret _ r => {| outcome := Ok _ r; final := w; calls := [] |}
  | Await _ c k =>
      match fw _ c w with
      | (inl x, w') =>
          let r := run fw (k x) w' in
          {| outcome := outcome _ _ r;
             final := final _ _ r;
             calls := Called c :: calls _ _ r |}
      | (inr e, w') =>
          {| outcome := Err _ (FromFramework e);
             final := w';
             calls := [Called c] |}
      end
  | Throw _ m => {| outcome := Err _ (Own m); final := w; calls := [] |}
  | TryCatch _ body handler =>
      let r := run fw body w in
      match outcome _ _ r with
      | Ok _ _ => r
      | Err _ e =>
          let r' := run fw (handler e) (final _ _ r) in
          {| outcome := outcome _ _ r';
             final := final _ _ r';
             calls := calls _ _ r ++ calls _ _ r' |}
      end
  end.

(** A body with no error handling of its own: no [throw] and no
    [try]/[catch] on any path. *)
Inductive delegates_errors {R : Type} : prog R -> Prop :=
| de_ret (r : R) : delegates_errors (Ret _ r)
| de_await {X : Type} (c : call X) (k : X -> prog R) :
    (forall x, delegates_errors (k x)) -> delegates_errors (Await _ c k).

End WithFramework.

Arguments Ret {FT R} r.
Arguments Await {FT R X} c k.
Arguments Throw {FT R} message.
Arguments TryCatch {FT R} body handler.
Arguments Ok {FT R} r.
Arguments Err {FT R} e.
Arguments outcome {FT W R} _.
Arguments final {FT W R} _.
Arguments calls {FT W R} _.

Notation "'let*' x ':=' 'await' c 'in' k" :=
  (Await c (fun x => k))
    (at level 61, x binder, c at level 60, k at level 200).

End Program.

(** ** next/font/google *)

(** The options object passed to a font loader and the object it returns;
    [variable] of the result is the class name the loader generates for the
    CSS variable named in the options. *)
Module FontOptions.
Record t : Type :=
  { subsets : list string;
    weight : list string;
    variable : string;
    display : option string }.
End FontOptions.

Module NextFont.
Record t : Type :=
  { className : string;
    variable : string }.
End NextFont.

(** The three loaders imported by the layout; they belong to Next.js. *)
Class GoogleFonts : Type :=
  { Zen_Kaku_Gothic_New : FontOptions.t -> NextFont.t;
    Dancing_Script : FontOptions.t -> NextFont.t;
    Quicksand : FontOptions.t -> NextFont.t }.

(** ** The components *)

Module Components.
Import JSX Program.

Section WithFramework.
Context `{FT : FrameworkTypes}.

(** src/components/Layout/Header *)
Definition Header : prog node :=
  Ret
    (Element (Host "header") [ ("className", "header") ]
       [ Element (Host "div") [ ("className", "header__inner") ]
           [ Element (Host "a") [ ("className", "header__logo"); ("href", "/") ]
               [ Text "Portfolio" ];
             Element (Host "nav") [ ("className", "header__nav") ]
               [ Element (Host "a") [ ("href", "/") ] [ Text "Home" ];
                 Element (Host "a") [ ("href", "/about") ] [ Text "About" ];
                 Element (Host "a") [ ("href", "/works") ] [ Text "Works" ];
                 Element (Host "a") [ ("href", "/contact") ] [ Text "Contact" ];
                 Element (Component "Link") [ ("href", "/admin") ] [ Text "Admin" ] ] ] ]).

(** src/app/(frontend)/page.tsx *)
Definition HomePage : prog node :=
  let* headers := await getHeaders in
  let* payloadConfig := await awaitConfig in
  let* payload := await getPayload payloadConfig in
  let* authResult := await auth payload headers in
  let user := user authResult in
  Ret
    (Element (Host "div") [ ("className", "home") ]
       [ Element (Host "section") [] [ Text "ポートフォリオ" ];
         Element (Host "section") [] [ Text "ポートフォリオ１" ];
         Element (Host "section") [] [ Text "ポートフォリオ２" ];
         Element (Host "section") [] [ Text "ポートフォリオ３" ];
         Element (Host "section") [] [ Text "ポートフォリオ４" ] ]).

(** src/app/(frontend)/layout.tsx *)
Section Layout.
Context `{GF : GoogleFonts}.

Definition zenKaku : NextFont.t :=
  Zen_Kaku_Gothic_New
    {| FontOptions.subsets := [ "latin" ];
       FontOptions.weight := [ "500"; "700" ];
       FontOptions.variable := "--font-zen-kaku";
       FontOptions.display := Some "swap" |}.

Definition dancingScript : NextFont.t :=
  Dancing_Script
    {| FontOptions.subsets := [ "latin" ];
       FontOptions.weight := [ "400"; "700" ];
       FontOptions.variable := "--font-dancing";
       FontOptions.display := None |}.

Definition quicksand : NextFont.t :=
  Quicksand
    {| FontOptions.subsets := [ "latin" ];
       FontOptions.weight := [ "400"; "700" ];
       FontOptions.variable := "--font-quicksand";
       FontOptions.display := None |}.

Record LayoutProps : Type := { children : node }.

Definition RootLayout (props : LayoutProps) : prog node :=
  let children := children props in
  Ret
    (Element (Host "html")
       [ ("lang", "ja");
         ("className",
           (NextFont.variable zenKaku ++ " " ++
            NextFont.variable dancingScript ++ " " ++
            NextFont.variable quicksand)%string) ]
       [ Element (Host "body") []
           [ Element (Component "Header") [] [];
             Element (Host "main") [] [ children ] ] ]).
End Layout.

End WithFramework.
End Components.

(** ** The container build (Dockerfile) *)

Module Docker.

Inductive instruction : Type :=
| FROM (image : string) (alias : option string)
| WORKDIR (path : string)
| COPY (from : option string) (src dest : string)
| RUN (command : string)
| ENV (key val : string)
| EXPOSE (port : nat)
| CMD (argv : list string).

Definition Dockerfile : list instruction :=
  [ FROM "node:22-alpine" (Some "builder");
    WORKDIR "/app";
    COPY None "package*.json" "./";
    RUN "npm install";
    COPY None "." ".";
    RUN "npm run build";
    FROM "node:22-alpine" (Some "runner");
    WORKDIR "/app";
    ENV "NODE_ENV" "production";
    COPY (Some "builder") "/app/public" "./public";
    COPY (Some "builder") "/app/.next/standalone" "./";
    COPY (Some "builder") "/app/.next/static" "./.next/static";
    EXPOSE 3000;
    ENV "PORT" "3000";
    CMD [ "node"; "server.js" ] ].

(** A build stage: the [FROM] that opens it and the instructions up to the
    next [FROM]. *)
Record stage : Type :=
  { base : string;
    name : option string;
    body : list instruction }.

(** Instructions before the first [FROM], and the stages. *)
Fixpoint split_stages (l : list instruction) : list instruction * list stage :=
  match l with
  | [] => ([], [])
  | FROM image alias :: rest =>
      let '(b, ss) := split_stages rest in
      ([], {| base := image; name := alias; body := b |} :: ss)
  | i :: rest =>
      let '(b, ss) := split_stages rest in
      (i :: b, ss)
  end.

Definition stages (l : list instruction) : list stage := snd (split_stages l).

(** What a stage copies: where from, what, and where to. *)
Fixpoint copies (l : list instruction) : list (option string * string * string) :=
  match l with
  | [] => []
  | COPY from src dest :: rest => (from, src, dest) :: copies rest
  | _ :: rest => copies rest
  end.

Fixpoint exposed (l : list instruction) : list nat :=
  match l with
  | [] => []
  | EXPOSE p :: rest => p :: exposed rest
  | _ :: rest => exposed rest
  end.

(** The value of an environment variable at the end of a stage: the last
    [ENV] for the key wins. *)
Fixpoint env (k : string) (l : list instruction) : option string :=
  match l with
  | [] => None
  | ENV k' v :: rest =>
      match env k rest with
      | Some v' => Some v'
      | None => if String.eqb k k' then Some v else None
      end
  | _ :: rest => env k rest
  end.

(** The command of the image: the last [CMD] wins. *)
Fixpoint cmd (l : list instruction) : option (list string) :=
  match l with
  | [] => None
  | CMD argv :: rest =>
      match cmd rest with
      | Some a => Some a
      | None => Some argv
      end
  | _ :: rest => cmd rest
  end.

End Docker.

(** ** Where custom endpoints are mounted *)

Module Endpoints.

(** The three places an endpoint can be declared in, as the repository's
    endpoint rules list them: on a collection, on a global, or in the root
    config. *)
Inductive placement : Type :=
| OnCollection (slug : string)
| OnGlobal (slug : string)
| OnRoot.

(** The worked examples of the rules: the place of the declaration, the
    declared [path], and the URL the example's comment gives for it. *)
Record example : Type :=
  { declared_on : placement;
    path : string;
    reachable_at : string }.

Definition Orders_tracking : example :=
  {| declared_on := OnCollection "orders";
     path := "/:id/tracking";
     reachable_at := "/api/orders/:id/tracking" |}.

Definition Settings_clear_cache : example :=
  {| declared_on := OnGlobal "settings";
     path := "/clear-cache";
     reachable_at := "/api/globals/settings/clear-cache" |}.

Definition root_hello : example :=
  {| declared_on := OnRoot;
     path := "/hello";
     reachable_at := "/api/hello" |}.

(** The segments of a URL path: the pieces between slashes. *)
Fixpoint segments_from (cur : string) (s : string) : list string :=
  match s with
  | EmptyString => if String.eqb cur "" then [] else [ cur ]
  | String c rest =>
      if Ascii.eqb c "/"%char
      then (if String.eqb cur "" then segments_from "" rest
            else cur :: segments_from "" rest)
      else segments_from (cur ++ String c "")%string rest
  end.

Definition segments (s : string) : list string := segments_from "" s.

Fixpoint render (segs : list string) : string :=
  match segs with
  | [] => ""
  | x :: rest => ("/" ++ x ++ render rest)%string
  end.

(** Modelled from the spec: the router that mounts the endpoints is part
    of Payload, not of this repository.  The rule is the one stated in
    words by the spec's list of auto-mounted routes and by the endpoint
    rules kept in the repository: [/api/{collection-slug}/{path}],
    [/api/globals/{global-slug}/{path}] and [/api/{path}]. *)
Definition mount_point (p : placement) : list string :=
  match p with
  | OnCollection slug => [ "api"; slug ]
  | OnGlobal slug => [ "api"; "globals"; slug ]
  | OnRoot => [ "api" ]
  end.

Definition mounted_at (p : placement) (path : string) : string :=
  render (mount_point p ++ segments path).

(** The paths the endpoint rules declare: empty, or a slash followed by a
    segment, any number of times; no segment is empty, so there is no
    doubled and no trailing slash. *)
Fixpoint no_empty_segment (s : string) : bool :=
  match s with
  | EmptyString => true
  | String c rest =>
      (if Ascii.eqb c "/"%char
       then match rest with
            | EmptyString => false
            | String d _ => negb (Ascii.eqb d "/"%char)
            end
       else true)
      && no_empty_segment rest
  end.

Definition is_path (s : string) : bool :=
  match s with
  | EmptyString => true
  | String c _ => Ascii.eqb c "/"%char
  end
  && no_empty_segment s.

End Endpoints.

(** ** Concrete frameworks *)

(** Small frameworks to run the components against: headers are name/value
    pairs, the user is whoever the [cookie] header names, if anybody, and
    the frameworks' state counts the calls served. *)
Module Sample.
Import Program.

Definition types : FrameworkTypes :=
  {| Headers := list (string * string);
     SanitizedConfig := unit;
     Payload := unit;
     AuthResult := option string;
     User := option string;
     user := fun a => a;
     FrameworkError := string |}.

#[local] Existing Instance types.

(** Every call resolves; the request carries the given headers. *)
Definition serving (request_headers : list (string * string)) : framework nat :=
  fun X c w =>
    match c in call X return (X + FrameworkError) * nat with
    | getHeaders => (inl request_headers, S w)
    | awaitConfig => (inl tt, S w)
    | getPayload _ => (inl tt, S w)
    | auth _ h => (inl (JS.assoc "cookie" h), S w)
    end.

(** The database is unreachable: [getPayload] rejects. *)
Definition database_down : framework nat :=
  fun X c w =>
    match c in call X return (X + FrameworkError) * nat with
    | getHeaders => (inl [], S w)
    | awaitConfig => (inl tt, S w)
    | getPayload _ => (inr "cannot connect to the database", S w)
    | auth _ h => (inl None, S w)
    end.

Definition fonts : GoogleFonts :=
  {| Zen_Kaku_Gothic_New := fun o =>
       {| NextFont.className := "zen"; NextFont.variable := "zen_v" |};
     Dancing_Script := fun o =>
       {| NextFont.className := "dancing"; NextFont.variable := "dancing_v" |};
     Quicksand := fun o =>
       {| NextFont.className := "quicksand"; NextFont.variable := "quicksand_v" |} |}.

End Sample.

(** ** JavaScript values at run time *)

Module Dyn.

#[local] Set Warnings "-register-all".

(** The values the endpoint handlers, hooks and access functions of the
    rules documents compute with.  The numbers that occur there are
    integers (status codes, limits, counts) and [NaN]. *)
Inductive val : Type :=
| Undefined
| Null
| Bool (b : bool)
| Num (n : Z)
| NaN
| Str (s : string)
| Arr (items : list val)
| Obj (props : list (string * val)).

(** [Boolean(v)], the test of [if (v)], [!v], [v || w] and [v && w]. *)
Definition truthy (v : val) : bool :=
  match v with
  | Undefined | Null | NaN => false
  | Bool b => b
  | Num n => negb (Z.eqb n 0)
  | Str s => negb (String.eqb s "")
  | Arr _ | Obj _ => true
  end.

(** [v.k] for a [v] that is neither [null] nor [undefined], for the
    property names the sources read ([id], [email], [_status], [slug], ...),
    none of which is built in: own properties of an object, [undefined]
    otherwise. *)
Definition get (k : string) (v : val) : val :=
  match v with
  | Obj props =>
      match JS.assoc k props with
      | Some x => x
      | None => Undefined
      end
  | _ => Undefined
  end.

(** [v] is [null] or [undefined]. *)
Definition nullish (v : val) : bool :=
  match v with
  | Undefined | Null => true
  | _ => false
  end.

(** [v?.k] *)
Definition optional (k : string) (v : val) : val :=
  match v with
  | Undefined | Null => Undefined
  | _ => get k v
  end.

(** [a === b] where one side is a primitive.  Two objects or arrays are
    equal only when they are the same reference, and [NaN] equals nothing. *)
Definition strict_eq (a b : val) : bool :=
  match a, b with
  | Undefined, Undefined => true
  | Null, Null => true
  | Bool x, Bool y => Bool.eqb x y
  | Num x, Num y => Z.eqb x y
  | Str x, Str y => String.eqb x y
  | _, _ => false
  end.

(** [a || b] *)
Definition or_else (a b : val) : val := if truthy a then a else b.

(** [list.includes(x)] on an array of strings. *)
Definition includes (x : string) (l : list string) : bool :=
  existsb (String.eqb x) l.

(** [s.startsWith(p)] and [s.includes(p)] on strings. *)
Fixpoint starts_with (p s : string) : bool :=
  match p, s with
  | EmptyString, _ => true
  | String a p', String b s' => Ascii.eqb a b && starts_with p' s'
  | String _ _, EmptyString => false
  end.

Fixpoint str_includes (p s : string) : bool :=
  starts_with p s ||
  match s with
  | EmptyString => false
  | String _ s' => str_includes p s'
  end.

End Dyn.

(** ** Handlers and hooks as programs *)

Module Effects.
Import Dyn.

(** What a handler can end with instead of a value: an [APIError] of its
    own, the [TypeError] of reading a property of [null] or [undefined], or
    the rejection of a call it awaited. *)
Inductive exn : Type :=
| APIError (message : string) (status : Z)
| TypeError
| Rejected (reason : val).

(** A function body: [return v], a call to something defined outside the
    function (a method call passes its receiver first, when the receiver is
    a value of the body) followed by the rest of the body, or a [throw]. *)
Inductive prog : Type :=
| Ret (v : val)
| Call (callee : string) (args : list val) (k : val -> prog)
| Throw (e : exn).

(** [v.k], which throws when [v] is [null] or [undefined]. *)
Definition member (v : val) (k : string) (cont : val -> prog) : prog :=
  match v with
  | Undefined | Null => Throw TypeError
  | _ => cont (get k v)
  end.

(** The world outside: each call resolves to a value or rejects with a
    reason, and may change the world's state [W]. *)
Definition world (W : Type) : Type :=
  string -> list val -> W -> (val + val) * W.

Record run_result (W : Type) : Type :=
  { result : val + exn;
    final : W;
    trace : list (string * list val) }.

Arguments result {W} _.
Arguments final {W} _.
Arguments trace {W} _.

Fixpoint run {W : Type} (env : world W) (p : prog) (w : W) : run_result W :=
  match p with
  | Ret v => {| result := inl v; final := w; trace := [] |}
  | Call f args k =>
      match env f args w with
      | (inl x, w') =>
          let r := run env (k x) w' in
          {| result := result r; final := final r; trace := (f, args) :: trace r |}
      | (inr reason, w') =>
          {| result := inr (Rejected reason); final := w'; trace := [ (f, args) ] |}
      end
  | Throw e => {| result := inr e; final := w; trace := [] |}
  end.

(** The calls of a run to one callee. *)
Definition calls_to {W : Type} (f : string) (r : run_result W) : list (list val) :=
  map snd (filter (fun c => String.eqb f (fst c)) (trace r)).

End Effects.

(** ** The endpoint handlers of the endpoint rules (kept with
       src/collections/Projects.ts) *)

Module Handlers.
Import Dyn Effects.

(** What the handlers read of [req]. *)
Record Request : Type :=
  { user : val;
    routeParams : val;
    url : val }.

Definition protectedEndpoint (req : Request) : prog :=
  if negb (truthy (user req)) then Throw (APIError "Unauthorized" 401)
  else
    member (user req) "id" (fun id =>
    Call "req.payload.find"
      [ Obj [ ("collection", Str "posts");
              ("where", Obj [ ("author", Obj [ ("equals", id) ]) ]) ] ]
      (fun data =>
    Call "Response.json" [ data ] Ret)).

Definition trackingEndpoint (req : Request) : prog :=
  member (routeParams req) "id" (fun id =>
  Call "getTrackingInfo" [ id ] (fun tracking =>
  if negb (truthy tracking)
  then Call "Response.json"
         [ Obj [ ("error", Str "not found") ]; Obj [ ("status", Num 404) ] ] Ret
  else Call "Response.json" [ tracking ] Ret)).

Definition validateEndpoint (req : Request) : prog :=
  Call "req.json" [] (fun data =>
  member data "email" (fun email =>
  if negb (truthy email)
  then Throw (APIError "メールアドレスは必須です" 400)
  else Call "Response.json" [ Obj [ ("valid", Bool true) ] ] Ret)).

End Handlers.

(** ** The access functions of the access-control rules *)

Module Access.
Import Dyn.

(** The user of a request, [req.user], is [null] for an anonymous request.
    Of a user the functions read [id], the optional [roles], [tenantId] and
    the optional [organizationIds]. *)
Record User : Type :=
  { id : string;
    roles : option (list string);
    tenantId : string;
    organizationIds : option (list string) }.

(** [user?.roles?.includes(role)], and [user.roles?.includes(role)] for a
    user known to be there. *)
Definition roles_include (role : string) (user : option User) : val :=
  match user with
  | None => Undefined
  | Some u =>
      match roles u with
      | None => Undefined
      | Some rs => Bool (includes role rs)
      end
  end.

(** [user?.id] *)
Definition id_of (user : option User) : val :=
  match user with
  | None => Undefined
  | Some u => Str (id u)
  end.

Definition adminOnly (user : option User) : val :=
  roles_include "admin" user.

Definition adminOrSelf (user : option User) : val :=
  if truthy (roles_include "admin" user) then Bool true
  else Obj [ ("id", Obj [ ("equals", id_of user) ]) ].

Definition teamMemberAccess (user : option User) : val :=
  match user with
  | None => Bool false
  | Some u =>
      if truthy (roles_include "admin" (Some u)) then Bool true
      else Obj [ ("team.members", Obj [ ("contains", Str (id u)) ]) ]
  end.

Definition tenantAccess (user : option User) : val :=
  match user with
  | None => Bool false
  | Some u =>
      if truthy (roles_include "super-admin" (Some u)) then Bool true
      else Obj [ ("tenant", Obj [ ("equals", Str (tenantId u)) ]) ]
  end.

(** The [beforeChange] hook of the [tenant] field. *)
Definition tenant_beforeChange
  (user : option User) (operation : string) (value : val) : val :=
  if String.eqb operation "create" && negb (truthy value)
  then match user with
       | None => Undefined
       | Some u => Str (tenantId u)
       end
  else value.

(** *** The advanced patterns *)

Definition createRoleBasedAccess (roles : list string) (user : option User) : val :=
  match user with
  | None => Bool false
  | Some u =>
      Bool (existsb (fun role => truthy (roles_include role (Some u))) roles)
  end.

Definition createOrgScopedAccess (allowAdmin : bool) (user : option User) : val :=
  match user with
  | None => Bool false
  | Some u =>
      if allowAdmin && truthy (roles_include "admin" (Some u)) then Bool true
      else
        Obj [ ("organizationId",
                Obj [ ("in",
                        Arr (map Str
                               (match organizationIds u with
                                | Some ids => ids
                                | None => []
                                end))) ]) ]
  end.

(** [PublicAuthCollection.access.create] (and [update]):
    [user?.roles?.some((role) => ['admin', 'editor'].includes(role)) || false] *)
Definition PublicAuthCollection_create (user : option User) : val :=
  or_else
    (match user with
     | None => Undefined
     | Some u =>
         match roles u with
         | None => Undefined
         | Some rs => Bool (existsb (fun role => includes role [ "admin"; "editor" ]) rs)
         end
     end)
    (Bool false).

(** [PublicAuthCollection.access.delete], and [create] and [delete] of
    [SelfServiceCollection]: [user?.roles?.includes('admin') || false] *)
Definition PublicAuthCollection_delete (user : option User) : val :=
  or_else (roles_include "admin" user) (Bool false).

(** [SelfServiceCollection.access.update] *)
Definition SelfServiceCollection_update (user : option User) (id : val) : val :=
  match user with
  | None => Bool false
  | Some u =>
      if truthy (roles_include "admin" (Some u)) then Bool true
      else Bool (strict_eq (Str (Access.id u)) id)
  end.

(** [restrictedIpAccess(allowedIps)], on [req.headers]: the headers may be
    missing, and [headers.get(name)] is the header's value or [null]. *)
Definition header (headers : option (string -> option string)) (name : string) : val :=
  match headers with
  | None => Undefined
  | Some get =>
      match get name with
      | Some v => Str v
      | None => Null
      end
  end.

Definition restrictedIpAccess
  (allowedIps : list string) (headers : option (string -> option string)) : val :=
  let ip := or_else (header headers "x-forwarded-for") (header headers "x-real-ip") in
  Bool (existsb (fun allowed => strict_eq (Str allowed) (or_else ip (Str ""))) allowedIps).

End Access.

(** ** The hooks and validators of the hook and field rules *)

Module Hooks.
Import Dyn Effects.

(** The [validate] function of the [email] field: the value is a string,
    [null] or [undefined]; the result is [true] or the error message. *)
Definition email_validate (value : option string) (operation : string) : val :=
  let v := match value with Some s => Str s | None => Undefined end in
  if String.eqb operation "create" && negb (truthy v)
  then Str "メールアドレスは必須です"
  else if truthy v &&
          negb (match value with Some s => str_includes "@" s | None => false end)
       then Str "メールアドレスの形式が正しくありません"
       else Bool true.

(** The [beforeChange] hook of the [publishedOn] date field. *)
Definition publishedOn_beforeChange (siblingData value : val) : prog :=
  member siblingData "_status" (fun status =>
  if strict_eq status (Str "published") && negb (truthy value)
  then Call "new Date" [] Ret
  else Ret value).

(** The [afterChange] hook of the Posts collection. *)
Definition Posts_afterChange (doc context : val) (operation : string) : prog :=
  member context "skipNotification" (fun skip =>
  if truthy skip then Ret Undefined
  else if String.eqb operation "create"
       then Call "sendNotification" [ doc ] (fun _ => Ret doc)
       else Ret doc).

Section Revalidate.

(** The conversion of a value to a string inside a template literal is the
    language's. *)
Variable ToString : val -> string.

(** [slug === 'home' ? '/' : `/${slug}`] *)
Definition page_path (slug : val) : string :=
  if strict_eq slug (Str "home") then "/" else ("/" ++ ToString slug)%string.

(** [revalidatePage], on [doc], [previousDoc] and [req.context]. *)
Definition revalidatePage (doc previousDoc context : val) : prog :=
  member context "disableRevalidate" (fun disabled =>
  if negb (truthy disabled) then
    member doc "_status" (fun status =>
    let unpublished : prog :=
      if strict_eq (optional "_status" previousDoc) (Str "published")
         && negb (strict_eq status (Str "published"))
      then member previousDoc "slug" (fun oldSlug =>
           Call "revalidatePath" [ Str (page_path oldSlug) ] (fun _ => Ret doc))
      else Ret doc in
    if strict_eq status (Str "published")
    then member doc "slug" (fun slug =>
         Call "payload.logger.info"
           [ Str ("ページを再検証: " ++ page_path slug) ] (fun _ =>
         Call "revalidatePath" [ Str (page_path slug) ] (fun _ =>
         unpublished)))
    else unpublished)
  else Ret doc).

End Revalidate.

End Hooks.

(** ** A concrete world *)

Module SampleWorld.
Import Dyn Effects.

(** A world in which every call resolves: lookups find nothing,
    [Response.json] hands back its arguments, and the state counts the
    calls. *)
Definition quiet : world nat :=
  fun f args w =>
    (inl (if String.eqb f "Response.json" then Arr args else Null), S w).

(** The same, except that the request body is the given value. *)
Definition posting (body : val) : world nat :=
  fun f args w =>
    (inl (if String.eqb f "req.json" then body
          else if String.eqb f "Response.json" then Arr args else Null), S w).

(** A string conversion that is the language's on strings. *)
Definition to_string (v : val) : string :=
  match v with
  | Str s => s
  | _ => "undefined"
  end.

Definition alice : Access.User :=
  {| Access.id := "u1";
     Access.roles := Some [ "editor" ];
     Access.tenantId := "t1";
     Access.organizationIds := None |}.

End SampleWorld.

(** * Properties *)

(** ** The Projects collection *)

Section ProjectsSchema.
Import JS Collections.

Lemma Projects_field_names :
  map (get "name") (fields Projects) =
    [ Some (VStr "title"); Some (VStr "mainImage");
      Some (VStr "url"); Some (VStr "description") ].
Proof. reflexivity. Qed.

Lemma description_is_textarea :
  field_prop "type" "description" Projects = Some (VStr "textarea").
Proof. reflexivity. Qed.

(** C1, as the data model words it: four fields in order, [title], [url]
    and [description] all of type text, [title] alone required.  The
    schema does not satisfy it: [description] is declared with type
    [textarea]. *)
Lemma Projects_description_not_text :
  field_prop "type" "description" Projects = Some (VStr "textarea") /\
  ~ (map (get "name") (fields Projects) =
       [ Some (VStr "title"); Some (VStr "mainImage");
         Some (VStr "url"); Some (VStr "description") ] /\
     field_prop "type" "title" Projects = Some (VStr "text") /\
     field_prop "required" "title" Projects = Some (VBool true) /\
     field_prop "type" "url" Projects = Some (VStr "text") /\
     field_prop "type" "description" Projects = Some (VStr "text") /\
     map (get "name") (required_fields Projects) = [ Some (VStr "title") ]).
Proof.
  split; [ apply description_is_textarea | ].
  intros (_ & _ & _ & _ & Hdesc & _).
  rewrite description_is_textarea in Hdesc.
  discriminate Hdesc.
Qed.

(** C1 (amended): the Projects schema has exactly four fields, in order
    [title] (text, [required: true]), [mainImage], [url] (text) and
    [description] (textarea); [title] is the only field marked required. *)
Theorem Projects_fields_schema :
  length (fields Projects) = 4 /\
  map (get "name") (fields Projects) =
    [ Some (VStr "title"); Some (VStr "mainImage");
      Some (VStr "url"); Some (VStr "description") ] /\
  field_prop "type" "title" Projects = Some (VStr "text") /\
  field_prop "required" "title" Projects = Some (VBool true) /\
  field_prop "type" "url" Projects = Some (VStr "text") /\
  field_prop "type" "description" Projects = Some (VStr "textarea") /\
  map (get "name") (required_fields Projects) = [ Some (VStr "title") ].
Proof. repeat split. Qed.

(** C2: [mainImage] is an upload field related to the [media] collection
    and explicitly not required; it is the second field and the only one
    of the schema that refers to another collection. *)
Theorem Projects_mainImage_is_media_upload :
  nth_error (fields Projects) 1 = field_named "mainImage" Projects /\
  field_prop "type" "mainImage" Projects = Some (VStr "upload") /\
  field_prop "relationTo" "mainImage" Projects = Some (VStr "media") /\
  field_prop "required" "mainImage" Projects = Some (VBool false) /\
  map (get "name") (relation_fields Projects) = [ Some (VStr "mainImage") ].
Proof. repeat split. Qed.

(** Every property name the literal uses is one of these nine. *)
Lemma Projects_all_keys k :
  In k (all_keys Projects) ->
  In k [ "slug"; "admin"; "useAsTitle"; "fields";
         "name"; "type"; "required"; "label"; "relationTo" ].
Proof.
  cbn. intros H.
  repeat (destruct H as [<- | H]; [ cbn; tauto | ]).
  destruct H.
Qed.

(** C3: the Projects config has the three properties [slug], [admin] and
    [fields] and no other; [admin] only sets [useAsTitle]; there is no
    [hooks], [access] or [endpoints] property, and nowhere in the literal,
    at any depth, is there a property other than the names, types, labels,
    required flags and the one [relationTo] of the fields. *)
Theorem Projects_declares_only_schema :
  keys Projects = [ "slug"; "admin"; "fields" ] /\
  get "slug" Projects = Some (VStr "projects") /\
  get "admin" Projects = Some (VObj [ ("useAsTitle", VStr "title") ]) /\
  has_key "hooks" Projects = false /\
  has_key "access" Projects = false /\
  has_key "endpoints" Projects = false /\
  Forall (fun f => incl (keys f) [ "name"; "type"; "required"; "label"; "relationTo" ])
    (fields Projects) /\
  map (get "name") (relation_fields Projects) = [ Some (VStr "mainImage") ] /\
  Forall (fun k => ~ In k (all_keys Projects))
    [ "hooks"; "access"; "endpoints"; "validate";
      "unique"; "index"; "auth"; "versions" ].
Proof.
  repeat match goal with |- _ /\ _ => split end; try reflexivity.
  - unfold fields; cbn.
    repeat (apply Forall_cons; [ intros k Hk; cbn in Hk |- *; tauto | ]).
    apply Forall_nil.
  - repeat (apply Forall_cons;
            [ intros Hin; apply Projects_all_keys in Hin; cbn in Hin;
              repeat (destruct Hin as [Hin | Hin]; [ discriminate Hin | ]);
              destruct Hin | ]).
    apply Forall_nil.
Qed.

End ProjectsSchema.

(** ** The container build *)

Section ContainerBuild.
Import Docker.

(** C5: the Dockerfile has exactly two stages, [builder] and [runner]; the
    runner stage, which is the image, copies exactly three paths, all from
    the builder ([public], the standalone output and the static assets),
    exposes port 3000 only, ends with [PORT] set to 3000, and its command
    is [node server.js]. *)
Theorem Dockerfile_two_stage_build :
  fst (split_stages Dockerfile) = [] /\
  map name (stages Dockerfile) = [ Some "builder"; Some "runner" ] /\
  map (fun s => copies (body s)) (stages Dockerfile) =
    [ [ (None, "package*.json", "./"); (None, ".", ".") ];
      [ (Some "builder", "/app/public", "./public");
        (Some "builder", "/app/.next/standalone", "./");
        (Some "builder", "/app/.next/static", "./.next/static") ] ] /\
  map (fun s => exposed (body s)) (stages Dockerfile) = [ []; [ 3000 ] ] /\
  map (fun s => env "PORT" (body s)) (stages Dockerfile) = [ None; Some "3000" ] /\
  map (fun s => cmd (body s)) (stages Dockerfile) =
    [ None; Some [ "node"; "server.js" ] ].
Proof. repeat split. Qed.

End ContainerBuild.

(** ** Endpoint mounting *)

Section EndpointMounting.
Import Endpoints.

Lemma append_assoc (a b c : string) :
  ((a ++ b) ++ c = a ++ (b ++ c))%string.
Proof.
  induction a as [| x a IH]; cbn; [ reflexivity | rewrite IH; reflexivity ].
Qed.

(** Splitting into segments and joining them again gives back the pending
    segment and the rest of the path, whenever no segment of the rest is
    empty. *)
Lemma render_segments_from (s cur : string) :
  no_empty_segment s = true ->
  render (segments_from cur s) =
    (if String.eqb cur "" &&
        match s with
        | EmptyString => true
        | String c _ => Ascii.eqb c "/"%char
        end
     then s
     else "/" ++ cur ++ s)%string.
Proof.
  revert cur. induction s as [| c r IH]; intros cur Hok.
  - cbn [segments_from]. destruct (String.eqb cur ""); reflexivity.
  - cbn [no_empty_segment] in Hok. apply Bool.andb_true_iff in Hok.
    destruct Hok as [Hhead Hrest].
    cbn [segments_from]. destruct (Ascii.eqb c "/") eqn:Hc.
    + apply Ascii.eqb_eq in Hc. subst c.
      destruct r as [| d r']; [ discriminate Hhead | ].
      apply Bool.negb_true_iff in Hhead.
      assert (Htail : render (segments_from "" (String d r')) =
                        ("/" ++ String d r')%string).
      { rewrite (IH "" Hrest). cbn [String.eqb andb]. rewrite Hhead.
        reflexivity. }
      destruct (String.eqb cur "") eqn:Hcur; cbn [andb].
      * exact Htail.
      * cbn [render]. rewrite Htail. reflexivity.
    + rewrite (IH (cur ++ String c "")%string Hrest).
      assert (Hne : String.eqb (cur ++ String c "") "" = false).
      { destruct cur; reflexivity. }
      rewrite Hne. cbn [andb]. rewrite Bool.andb_false_r.
      rewrite append_assoc. reflexivity.
Qed.

Lemma render_segments (path : string) :
  is_path path = true -> render (segments path) = path.
Proof.
  unfold is_path, segments. intros H. apply Bool.andb_true_iff in H.
  destruct H as [Hstart Hok].
  rewrite (render_segments_from path "" Hok). cbn [String.eqb andb].
  rewrite Hstart. reflexivity.
Qed.

Lemma render_app (a b : list string) :
  render (a ++ b) = (render a ++ render b)%string.
Proof.
  induction a as [| x a IH]; cbn; [ reflexivity | ].
  rewrite IH, append_assoc. reflexivity.
Qed.

(** C7: for every declared path (a slash and a segment, any number of
    times), an endpoint declared on a collection is mounted at
    [/api/{collection-slug}] followed by the path itself, one declared on a
    global at [/api/globals/{global-slug}] followed by the path, and one
    declared in the root config at [/api] followed by the path; the three
    worked examples of the endpoint rules are reachable where their
    comments say. *)
Theorem endpoints_mounted_under_api (slug path : string) :
  is_path path = true ->
  mounted_at (OnCollection slug) path = ("/api/" ++ slug ++ path)%string /\
  mounted_at (OnGlobal slug) path = ("/api/globals/" ++ slug ++ path)%string /\
  mounted_at OnRoot path = ("/api" ++ path)%string /\
  Forall (fun e => is_path (Endpoints.path e) = true /\
                   mounted_at (declared_on e) (Endpoints.path e) = reachable_at e)
    [ Orders_tracking; Settings_clear_cache; root_hello ].
Proof.
  intros Hpath. unfold mounted_at.
  rewrite !render_app, (render_segments path Hpath).
  repeat match goal with |- _ /\ _ => split end.
  - cbn. rewrite append_assoc. reflexivity.
  - cbn. rewrite append_assoc. reflexivity.
  - reflexivity.
  - repeat (apply Forall_cons; [ split; reflexivity | ]).
    apply Forall_nil.
Qed.

(** The tracking endpoint of the orders collection. *)
Lemma orders_tracking_mounted :
  is_path "/:id/tracking" = true /\
  mounted_at (OnCollection "orders") "/:id/tracking" = "/api/orders/:id/tracking".
Proof.
  split; [ reflexivity | ].
  apply (proj1 (endpoints_mounted_under_api "orders" "/:id/tracking" eq_refl)).
Defined.

End EndpointMounting.

(** ** Running the components *)

Section ComponentRuns.
Import JSX Program Components.
Context `{FT : FrameworkTypes}.

(** An error of a body without [throw] and [try] is the error of a
    framework call the run made. *)
Lemma delegated_error_origin {W R : Type} (fw : framework W) (p : prog R) :
  delegates_errors p ->
  forall w e,
    outcome (run fw p w) = Err e ->
    exists (X : Type) (c : call X) (w' : W) (fe : FrameworkError),
      fst (fw X c w') = inr fe /\
      e = FromFramework fe /\
      In (Called c) (calls (run fw p w)).
Proof.
  induction 1 as [r | X c k Hk IH]; intros w e He; cbn [run] in *.
  - discriminate He.
  - destruct (fw X c w) as [[x | fe] w'] eqn:Hc; cbn [outcome calls] in *.
    + destruct (IH x w' e He) as (X' & c' & w'' & fe' & Hfail & -> & Hin).
      exists X', c', w'', fe'. repeat split; [ exact Hfail | right; exact Hin ].
    + injection He as <-.
      exists X, c, w, fe. rewrite Hc. repeat split. left. reflexivity.
Qed.

Lemma Header_delegates : delegates_errors Header.
Proof. constructor. Qed.

Lemma HomePage_delegates : delegates_errors HomePage.
Proof. unfold HomePage. repeat (constructor; intros). Qed.

Lemma RootLayout_delegates `{GF : GoogleFonts} props :
  delegates_errors (RootLayout props).
Proof. constructor. Qed.

(** One run of [HomePage]: either the four calls resolve in turn, each fed
    with what the earlier ones resolved to, and the page is returned, or
    one of them rejects and the run ends there with that error. *)
Lemma HomePage_run :
  exists page : node,
  forall (W : Type) (fw : framework W) (w : W),
    (exists h c p a w1 w2 w3 w4,
       fw _ getHeaders w = (inl h, w1) /\
       fw _ awaitConfig w1 = (inl c, w2) /\
       fw _ (getPayload c) w2 = (inl p, w3) /\
       fw _ (auth p h) w3 = (inl a, w4) /\
       run fw HomePage w =
         {| outcome := Ok page;
            final := w4;
            calls := [ Called getHeaders; Called awaitConfig;
                       Called (getPayload c); Called (auth p h) ] |})
    \/
    (exists fe n,
       outcome (run fw HomePage w) = Err (FromFramework fe) /\
       n < 4 /\
       map callee (calls (run fw HomePage w)) =
         firstn (S n)
           [ "getHeaders()"; "config"; "getPayload({ config })";
             "payload.auth({ headers })" ]).
Proof.
  eexists. intros W fw w. unfold HomePage. cbn [run].
  destruct (fw _ getHeaders w) as [[h | e] w1] eqn:H1;
    [ | right; exists e, 0; cbn; repeat split; lia ].
  cbn [run].
  destruct (fw _ awaitConfig w1) as [[c | e] w2] eqn:H2;
    [ | right; exists e, 1; cbn; repeat split; lia ].
  cbn [run].
  destruct (fw _ (getPayload c) w2) as [[p | e] w3] eqn:H3;
    [ | right; exists e, 2; cbn; repeat split; lia ].
  cbn [run].
  destruct (fw _ (auth p h) w3) as [[a | e] w4] eqn:H4;
    [ | right; exists e, 3; cbn; repeat split; lia ].
  left. exists h, c, p, a, w1, w2, w3, w4.
  repeat split; try assumption.
Qed.

(** C4: two runs of [HomePage] that both return, against any two
    frameworks in any two states (so with any request headers and any
    user resolved by [payload.auth]), return the same element tree. *)
Theorem HomePage_independent_of_user
  (W1 W2 : Type) (fw1 : framework W1) (fw2 : framework W2)
  (w1 : W1) (w2 : W2) (t1 t2 : node) :
  outcome (run fw1 HomePage w1) = Ok t1 ->
  outcome (run fw2 HomePage w2) = Ok t2 ->
  t1 = t2.
Proof.
  destruct HomePage_run as [page Hrun]. intros H1 H2.
  destruct (Hrun W1 fw1 w1) as
    [(h & c & p & a & u1 & u2 & u3 & u4 & _ & _ & _ & _ & Hr) | (fe & n & He & _)];
    [ rewrite Hr in H1; cbn in H1 | congruence ].
  destruct (Hrun W2 fw2 w2) as
    [(h' & c' & p' & a' & v1 & v2 & v3 & v4 & _ & _ & _ & _ & Hr') | (fe & n & He & _)];
    [ rewrite Hr' in H2; cbn in H2 | congruence ].
  congruence.
Qed.

(** C6: every run of [HomePage] makes a prefix of the same four calls and
    nothing else; in a run that returns, they are, in order: the request
    headers, the repository's payload config, [getPayload] on the config
    that resolved, and [payload.auth] on the instance that resolved, with
    the headers that resolved. *)
Theorem HomePage_data_access (W : Type) (fw : framework W) (w : W) :
  (exists n,
     map callee (calls (run fw HomePage w)) =
       firstn n
         [ "getHeaders()"; "config"; "getPayload({ config })";
           "payload.auth({ headers })" ]) /\
  (forall t,
     outcome (run fw HomePage w) = Ok t ->
     exists h c p a w1 w2 w3 w4,
       fw _ getHeaders w = (inl h, w1) /\
       fw _ awaitConfig w1 = (inl c, w2) /\
       fw _ (getPayload c) w2 = (inl p, w3) /\
       fw _ (auth p h) w3 = (inl a, w4) /\
       final (run fw HomePage w) = w4 /\
       calls (run fw HomePage w) =
         [ Called getHeaders; Called awaitConfig;
           Called (getPayload c); Called (auth p h) ]).
Proof.
  destruct HomePage_run as [page Hrun].
  destruct (Hrun W fw w) as
    [(h & c & p & a & w1 & w2 & w3 & w4 & H1 & H2 & H3 & H4 & Hr)
    | (fe & n & He & Hn & Hc)].
  - split.
    + exists 4. rewrite Hr. reflexivity.
    + intros t _. exists h, c, p, a, w1, w2, w3, w4.
      rewrite Hr. repeat split; assumption.
  - split.
    + exists (S n). exact Hc.
    + intros t Ht. congruence.
Qed.

(** C8: none of the three component bodies throws or catches; [Header]
    and [RootLayout] always return; an error of [HomePage] is the error
    with which one of its framework calls rejected; and the Projects
    literal has none of the properties that take functions. *)
Theorem errors_come_from_the_framework `{GF : GoogleFonts} :
  delegates_errors Header /\
  delegates_errors HomePage /\
  (forall props, delegates_errors (RootLayout props)) /\
  (forall (W : Type) (fw : framework W) (w : W),
     exists t, outcome (run fw Header w) = Ok t) /\
  (forall (W : Type) (fw : framework W) (w : W) props,
     exists t, outcome (run fw (RootLayout props) w) = Ok t) /\
  (forall (W : Type) (fw : framework W) (w : W) (e : error),
     outcome (run fw HomePage w) = Err e ->
     exists (X : Type) (c : call X) (w' : W) (fe : FrameworkError),
       fst (fw X c w') = inr fe /\
       e = FromFramework fe /\
       In (Called c) (calls (run fw HomePage w))) /\
  Forall (fun k => ~ In k (JS.all_keys Collections.Projects))
    [ "hooks"; "access"; "endpoints"; "validate" ].
Proof.
  split; [ exact Header_delegates | ].
  split; [ exact HomePage_delegates | ].
  split; [ intros props; apply RootLayout_delegates | ].
  split; [ intros W fw w; eexists; reflexivity | ].
  split; [ intros W fw w props; eexists; reflexivity | ].
  split.
  - intros W fw w e He.
    exact (delegated_error_origin fw HomePage HomePage_delegates w e He).
  - repeat (apply Forall_cons;
            [ intros Hin; apply Projects_all_keys in Hin; cbn in Hin;
              repeat (destruct Hin as [Hin | Hin]; [ discriminate Hin | ]);
              destruct Hin | ]).
    apply Forall_nil.
Qed.

(** C9: for every [children], [RootLayout] returns, without calling the
    frameworks, an [html] element with [lang] ja whose class is the three
    font variable classes separated by spaces and whose only child is a
    [body] holding [<Header />] followed by a [main] that wraps [children];
    the output for any other [children] is the same tree with that one
    position replaced. *)
Theorem RootLayout_wraps_children `{GF : GoogleFonts} (props : LayoutProps) :
  exists t : node,
    (forall (W : Type) (fw : framework W) (w : W),
       run fw (RootLayout props) w =
         {| outcome := Ok t; final := w; calls := [] |}) /\
    type_of t = Some (Host "html") /\
    prop "lang" t = Some "ja" /\
    (exists o1 o2 o3,
       map FontOptions.variable [ o1; o2; o3 ] =
         [ "--font-zen-kaku"; "--font-dancing"; "--font-quicksand" ] /\
       prop "className" t =
         Some (NextFont.variable (Zen_Kaku_Gothic_New o1) ++ " " ++
               NextFont.variable (Dancing_Script o2) ++ " " ++
               NextFont.variable (Quicksand o3))%string) /\
    map type_of (children_of t) = [ Some (Host "body") ] /\
    option_map children_of (get_at [ 0 ] t) =
      Some [ Element (Component "Header") [] [];
             Element (Host "main") [] [ children props ] ] /\
    get_at [ 0; 1; 0 ] t = Some (children props) /\
    (forall (props' : LayoutProps) (W : Type) (fw : framework W) (w : W),
       outcome (run fw (RootLayout props') w) =
         Ok (replace_at [ 0; 1; 0 ] (children props') t)).
Proof.
  eexists.
  split; [ intros W fw w; reflexivity | ].
  repeat match goal with |- _ /\ _ => split end; try reflexivity.
  do 3 eexists. split; [ | reflexivity ]. reflexivity.
Qed.

(** C10: [Header] returns the same element in every run and calls
    nothing: a [header] whose inner block holds the logo, a link to [/],
    and a [nav] with exactly five links, in order Home [/], About
    [/about], Works [/works], Contact [/contact] and Admin [/admin]. *)
Theorem Header_is_constant :
  exists t : node,
    (forall (W : Type) (fw : framework W) (w : W),
       run fw Header w = {| outcome := Ok t; final := w; calls := [] |}) /\
    type_of t = Some (Host "header") /\
    option_map (map type_of) (option_map children_of (get_at [ 0 ] t)) =
      Some [ Some (Host "a"); Some (Host "nav") ] /\
    option_map link_of (get_at [ 0; 0 ] t) =
      Some (Some ("/", [ Text "Portfolio" ])) /\
    option_map (map link_of) (option_map children_of (get_at [ 0; 1 ] t)) =
      Some [ Some ("/", [ Text "Home" ]);
             Some ("/about", [ Text "About" ]);
             Some ("/works", [ Text "Works" ]);
             Some ("/contact", [ Text "Contact" ]);
             Some ("/admin", [ Text "Admin" ]) ].
Proof.
  eexists.
  split; [ intros W fw w; reflexivity | ].
  repeat split.
Qed.

End ComponentRuns.

(** ** The statements at concrete frameworks *)

Section AtSampleFrameworks.
Import JSX Program Components.
#[local] Existing Instance Sample.types.
#[local] Existing Instance Sample.fonts.

(** A request of a signed-in user and an anonymous request get the same
    page. *)
Lemma HomePage_same_for_alice_and_anonymous :
  exists t1 t2 : node,
    outcome (run (Sample.serving [ ("cookie", "alice") ]) HomePage 0) = Ok t1 /\
    outcome (run (Sample.serving []) HomePage 7) = Ok t2 /\
    t1 = t2.
Proof.
  eexists. eexists.
  split; [ reflexivity | ].
  split; [ reflexivity | ].
  apply (HomePage_independent_of_user nat nat
           (Sample.serving [ ("cookie", "alice") ]) (Sample.serving []) 0 7);
    reflexivity.
Defined.

(** The calls of a served request. *)
Lemma HomePage_calls_when_served :
  exists t : node,
    outcome (run (Sample.serving [ ("cookie", "alice") ]) HomePage 0) = Ok t /\
    exists h c p,
      calls (run (Sample.serving [ ("cookie", "alice") ]) HomePage 0) =
        [ Called getHeaders; Called awaitConfig;
          Called (getPayload c); Called (auth p h) ].
Proof.
  eexists. split; [ reflexivity | ].
  destruct (proj2 (HomePage_data_access nat
                     (Sample.serving [ ("cookie", "alice") ]) 0) _ eq_refl)
    as (h & c & p & _ & _ & _ & _ & _ & _ & _ & _ & _ & _ & Hcalls).
  exists h, c, p. exact Hcalls.
Defined.

(** With the database down, the error of [HomePage] is the framework's. *)
Lemma HomePage_error_when_database_down :
  exists e : error,
    outcome (run Sample.database_down HomePage 0) = Err e /\
    exists (X : Type) (c : call X) (w' : nat) (fe : FrameworkError),
      fst (Sample.database_down X c w') = inr fe /\
      e = FromFramework fe /\
      In (Called c) (calls (run Sample.database_down HomePage 0)).
Proof.
  eexists. split; [ reflexivity | ].
  destruct errors_come_from_the_framework as (_ & _ & _ & _ & _ & H & _).
  apply H. reflexivity.
Defined.

End AtSampleFrameworks.

(** ** The endpoint handlers *)

(** Proves a [Forall] over an explicit list, element by element. *)
Ltac forall_list :=
  repeat (apply Forall_cons; [ auto | ]); apply Forall_nil.

Section EndpointHandlers.
Import Dyn Effects Handlers.

(** X1: without a user on the request, [protectedEndpoint] throws the 401
    [APIError] before it calls anything: no query is made and the world is
    left as it was. *)
Theorem protectedEndpoint_rejects_anonymous
  (W : Type) (env : world W) (w : W) (req : Request) :
  truthy (user req) = false ->
  run env (protectedEndpoint req) w =
    {| result := inr (APIError "Unauthorized" 401); final := w; trace := [] |}.
Proof.
  intros Hanon. unfold protectedEndpoint. rewrite Hanon. reflexivity.
Qed.

(** X2: whatever the world does, the only query [protectedEndpoint] makes
    is the one for the posts whose author is the requester's own [id], and
    a value it returns is what [Response.json] made of the posts that query
    resolved to. *)
Theorem protectedEndpoint_scoped_to_requester
  (W : Type) (env : world W) (w : W) (req : Request) :
  Forall
    (fun args =>
       args = [ Obj [ ("collection", Str "posts");
                      ("where",
                        Obj [ ("author", Obj [ ("equals", get "id" (user req)) ]) ]) ] ])
    (calls_to "req.payload.find" (run env (protectedEndpoint req) w)) /\
  Forall (fun c => fst c = "req.payload.find" \/ fst c = "Response.json")
    (trace (run env (protectedEndpoint req) w)) /\
  match result (run env (protectedEndpoint req) w) with
  | inl response =>
      exists data w1,
        env "req.payload.find"
          [ Obj [ ("collection", Str "posts");
                  ("where",
                    Obj [ ("author", Obj [ ("equals", get "id" (user req)) ]) ]) ] ] w =
          (inl data, w1) /\
        env "Response.json" [ data ] w1 =
          (inl response, final (run env (protectedEndpoint req) w))
  | inr _ => True
  end.
Proof.
  unfold protectedEndpoint.
  destruct (truthy (user req)) eqn:Huser; cbn [negb].
  2: { cbn. repeat split; constructor. }
  assert (Hm : forall k, member (user req) "id" k = k (get "id" (user req))).
  { intros k. destruct (user req); try discriminate Huser; reflexivity. }
  rewrite Hm. cbn [run].
  destruct (env "req.payload.find" _ w) as [[data | reason] w1] eqn:Hfind;
    cbn [run].
  - destruct (env "Response.json" [ data ] w1) as [[v | reason] w2] eqn:Hjson;
      cbn; (split; [ forall_list | split; [ forall_list | ] ]);
      try exact I.
    exists data, w1. split; [ reflexivity | exact Hjson ].
  - cbn. split; [ forall_list | split; [ forall_list | exact I ] ].
Qed.

(** X3: [trackingEndpoint] looks up the [id] route parameter once; when
    the lookup resolves to a falsy value it answers with the [not found]
    body and status 404, and otherwise with what the lookup resolved to. *)
Theorem trackingEndpoint_not_found_iff_no_tracking
  (W : Type) (env : world W) (w w1 : W) (req : Request)
  (params : list (string * val)) (tracking : val) :
  routeParams req = Obj params ->
  env "getTrackingInfo" [ get "id" (Obj params) ] w = (inl tracking, w1) ->
  trace (run env (trackingEndpoint req) w) =
    [ ("getTrackingInfo", [ get "id" (Obj params) ]);
      ("Response.json",
        if truthy tracking then [ tracking ]
        else [ Obj [ ("error", Str "not found") ]; Obj [ ("status", Num 404) ] ]) ].
Proof.
  intros Hparams Hlookup. unfold trackingEndpoint. rewrite Hparams.
  cbn [member run]. rewrite Hlookup.
  destruct (truthy tracking); cbn [negb run trace];
    match goal with
    | |- context [env "Response.json" ?a ?s] =>
        destruct (env "Response.json" a s) as [[v | reason] w2]
    end; reflexivity.
Qed.

(** X4: [validateEndpoint] reads the body and nothing else.  A [null] or
    missing body ends in a [TypeError]; a body whose [email] is falsy
    (missing, empty, [0], [false], [null]) ends in the 400 [APIError];
    any other body is answered with [{ valid: true }]. *)
Theorem validateEndpoint_outcome
  (W : Type) (env : world W) (w w1 : W) (req : Request) (data : val) :
  env "req.json" [] w = (inl data, w1) ->
  result (run env (validateEndpoint req) w) =
    (if nullish data then inr TypeError
     else if truthy (get "email" data)
          then match fst (env "Response.json" [ Obj [ ("valid", Bool true) ] ] w1) with
               | inl response => inl response
               | inr reason => inr (Rejected reason)
               end
          else inr (APIError "メールアドレスは必須です" 400)) /\
  Forall (fun c => c = ("req.json", []) \/
                   c = ("Response.json", [ Obj [ ("valid", Bool true) ] ]))
    (trace (run env (validateEndpoint req) w)).
Proof.
  intros Hbody. unfold validateEndpoint. cbn [run]. rewrite Hbody.
  assert (Hcases :
    nullish data = true /\ (forall k, member data "email" k = Throw TypeError) \/
    nullish data = false /\ (forall k, member data "email" k = k (get "email" data))).
  { destruct data; cbn; auto. }
  destruct Hcases as [[Hn Hm] | [Hn Hm]]; rewrite Hn, Hm.
  - cbn. split; [ reflexivity | forall_list ].
  - destruct (truthy (get "email" data)); cbn [negb run].
    + destruct (env "Response.json" _ w1) as [[v | reason] w2]; cbn;
        (split; [ reflexivity | forall_list ]).
    + cbn. split; [ reflexivity | forall_list ].
Qed.

End EndpointHandlers.

(** ** The access functions *)

Section AccessFunctions.
Import Dyn Access.

Lemma includes_In (x : string) (l : list string) :
  includes x l = true <-> In x l.
Proof.
  unfold includes. rewrite existsb_exists. split.
  - intros (y & Hy & Heq). apply String.eqb_eq in Heq. subst y. exact Hy.
  - intros Hx. exists x. split; [ exact Hx | apply String.eqb_refl ].
Qed.

Lemma strict_eq_Str (s : string) (v : val) :
  strict_eq (Str s) v = true <-> v = Str s.
Proof.
  destruct v; cbn; split; intros H; try discriminate H.
  - apply String.eqb_eq in H. subst. reflexivity.
  - injection H as ->. apply String.eqb_refl.
Qed.

(** [user?.roles?.includes(role)] is truthy exactly for a user who is
    there, has roles, and has that one. *)
Lemma roles_include_truthy (role : string) (user : option User) :
  truthy (roles_include role user) = true <->
  exists u rs, user = Some u /\ roles u = Some rs /\ In role rs.
Proof.
  unfold roles_include. split.
  - destruct user as [u |]; [ | discriminate ].
    destruct (roles u) as [rs |] eqn:Hr; [ | discriminate ].
    cbn. intros H. exists u, rs. rewrite includes_In in H. auto.
  - intros (u & rs & -> & Hr & Hin). rewrite Hr. cbn.
    apply includes_In. exact Hin.
Qed.

(** Testing each of the user's roles against the two allowed ones is
    testing each allowed role against the user's. *)
Lemma some_role_allowed (a b : string) (rs : list string) :
  existsb (fun role => includes role [ a; b ]) rs = includes a rs || includes b rs.
Proof.
  unfold includes. induction rs as [| r rs IH]; [ reflexivity | ].
  cbn in *. rewrite IH.
  rewrite (String.eqb_sym a r), (String.eqb_sym b r).
  destruct (String.eqb r a), (String.eqb r b),
    (existsb (String.eqb a) rs), (existsb (String.eqb b) rs); reflexivity.
Qed.

(** X5: [adminOrSelf] never denies: its result is truthy for every user, and
    for an anonymous request it is the constraint [id equals undefined],
    where [teamMemberAccess] and [tenantAccess] answer [false]. *)
Theorem adminOrSelf_never_denies (user : option User) :
  truthy (adminOrSelf user) = true /\
  adminOrSelf None = Obj [ ("id", Obj [ ("equals", Undefined) ]) ] /\
  teamMemberAccess None = Bool false /\
  tenantAccess None = Bool false.
Proof.
  repeat split. unfold adminOrSelf.
  destruct (truthy (roles_include "admin" user)); reflexivity.
Qed.

(** X6: the three ways the rules write "admins only" let the same users
    in; [adminOnly] alone answers [undefined] instead of [false] to a user
    without roles or to nobody. *)
Theorem admin_only_variants_agree (user : option User) :
  PublicAuthCollection_delete user = createRoleBasedAccess [ "admin" ] user /\
  truthy (adminOnly user) = truthy (createRoleBasedAccess [ "admin" ] user) /\
  (adminOnly user = Undefined <->
   user = None \/ exists u, user = Some u /\ roles u = None).
Proof.
  unfold PublicAuthCollection_delete, adminOnly, createRoleBasedAccess, or_else,
    roles_include.
  destruct user as [u |].
  - destruct (roles u) as [rs |] eqn:Hr; cbn; rewrite ?Hr; cbn.
    + destruct (includes "admin" rs); cbn; repeat split;
        try discriminate;
        intros [H | (u' & H & Hn)]; try discriminate H;
        injection H as <-; congruence.
    + repeat split; intros; right; exists u; auto.
  - cbn. repeat split; auto.
Qed.

(** X7: [PublicAuthCollection]'s [create] check, which tests the user's
    roles against the allowed ones, is [createRoleBasedAccess] of
    [admin] and [editor], which tests the allowed roles against the
    user's: the same answer for every user. *)
Theorem PublicAuthCollection_create_is_role_based (user : option User) :
  PublicAuthCollection_create user =
    createRoleBasedAccess [ "admin"; "editor" ] user.
Proof.
  unfold PublicAuthCollection_create, createRoleBasedAccess, or_else, roles_include.
  destruct user as [u |]; [ | reflexivity ].
  destruct (roles u) as [rs |]; [ | reflexivity ].
  rewrite some_role_allowed. cbn.
  destruct (includes "admin" rs), (includes "editor" rs); reflexivity.
Qed.

(** X8: [createRoleBasedAccess(roles)] answers [true] exactly when the
    request has a user whose roles share a role with [roles], and [false]
    otherwise; in particular the empty list lets nobody in. *)
Theorem createRoleBasedAccess_spec (allowed : list string) (user : option User) :
  (createRoleBasedAccess allowed user = Bool true <->
   exists u rs r,
     user = Some u /\ roles u = Some rs /\ In r allowed /\ In r rs) /\
  (createRoleBasedAccess allowed user = Bool true \/
   createRoleBasedAccess allowed user = Bool false) /\
  createRoleBasedAccess [] user = Bool false.
Proof.
  split; [ | split ].
  - unfold createRoleBasedAccess. destruct user as [u |].
    + split.
      * intros H. injection H as H. apply existsb_exists in H.
        destruct H as (r & Hr & Ht).
        change (truthy (roles_include r (Some u)) = true) in Ht.
        apply roles_include_truthy in Ht.
        destruct Ht as (u' & rs & Hu & Hroles & Hin).
        injection Hu as <-. exists u, rs, r. auto.
      * intros (u' & rs & r & Hu & Hroles & Hr & Hin). injection Hu as <-.
        f_equal. apply existsb_exists. exists r. split; [ exact Hr | ].
        apply (proj2 (roles_include_truthy r (Some u))). exists u, rs. auto.
    + split; [ discriminate | ].
      intros (u' & rs & r & Hu & _). discriminate Hu.
  - unfold createRoleBasedAccess. destruct user as [u |]; [ | auto ].
    destruct (existsb _ allowed); auto.
  - destruct user; reflexivity.
Qed.

(** X9: allowing more roles never shuts out a user who was let in. *)
Theorem createRoleBasedAccess_monotone
  (allowed allowed' : list string) (user : option User) :
  incl allowed allowed' ->
  createRoleBasedAccess allowed user = Bool true ->
  createRoleBasedAccess allowed' user = Bool true.
Proof.
  intros Hincl H. unfold createRoleBasedAccess in *.
  destruct user as [u |]; [ | discriminate H ].
  injection H as H. f_equal.
  apply existsb_exists in H. destruct H as (r & Hr & Ht).
  apply existsb_exists. exists r. split; [ apply Hincl; exact Hr | exact Ht ].
Qed.

(** X10: [createOrgScopedAccess(false)] never answers [true]: nobody, and
    no admin, gets past the organization filter, and a user without
    [organizationIds] is filtered by the empty list.  For users who are
    not admins the default [createOrgScopedAccess()] answers the same. *)
Theorem createOrgScopedAccess_strict (user : option User) :
  (createOrgScopedAccess false user = Bool false \/
   exists ids,
     createOrgScopedAccess false user =
       Obj [ ("organizationId", Obj [ ("in", Arr (map Str ids)) ]) ]) /\
  (truthy (adminOnly user) = false ->
   createOrgScopedAccess true user = createOrgScopedAccess false user) /\
  (forall u, user = Some u -> organizationIds u = None ->
     createOrgScopedAccess false user =
       Obj [ ("organizationId", Obj [ ("in", Arr []) ]) ]).
Proof.
  unfold createOrgScopedAccess, adminOnly. destruct user as [u |].
  - split; [ right; eexists; reflexivity | split ].
    + intros H. rewrite H. reflexivity.
    + intros u' Hu Hn. injection Hu as <-. cbn. rewrite Hn. reflexivity.
  - split; [ left; reflexivity | split; [ reflexivity | discriminate ] ].
Qed.

(** X11: tenant isolation as the rules set it up.  For a user who is not a
    [super-admin], whatever other roles they hold, [tenantAccess] is the
    constraint whose operand is exactly what the [tenant] field's
    [beforeChange] hook stamps on a document created without a tenant; and
    the hook hands back unchanged every truthy value and every value of an
    operation other than [create]. *)
Theorem tenant_stamp_matches_constraint
  (u : User) (operation : string) (value : val) :
  truthy (roles_include "super-admin" (Some u)) = false ->
  tenantAccess (Some u) =
    Obj [ ("tenant",
            Obj [ ("equals", tenant_beforeChange (Some u) "create" Undefined) ]) ] /\
  (truthy value = true \/ operation <> "create" ->
   tenant_beforeChange (Some u) operation value = value).
Proof.
  intros Hsa. split.
  - unfold tenantAccess. rewrite Hsa. reflexivity.
  - unfold tenant_beforeChange. intros [Hv | Hop].
    + rewrite Hv. rewrite Bool.andb_false_r. reflexivity.
    + apply String.eqb_neq in Hop. rewrite Hop. reflexivity.
Qed.

(** X12: under [SelfServiceCollection], a user who is not an admin may
    update exactly the document whose [id] is the string of their own [id]
    (a numeric [id] never matches), and nobody may update without
    signing in. *)
Theorem SelfServiceCollection_update_own_only (u : User) (doc_id : val) :
  truthy (roles_include "admin" (Some u)) = false ->
  (SelfServiceCollection_update (Some u) doc_id = Bool true <->
   doc_id = Str (id u)) /\
  SelfServiceCollection_update None doc_id = Bool false.
Proof.
  intros Hadmin. split; [ | reflexivity ].
  unfold SelfServiceCollection_update. rewrite Hadmin.
  rewrite <- strict_eq_Str.
  destruct (strict_eq (Str (id u)) doc_id); split; congruence.
Qed.

(** X13: [restrictedIpAccess(allowedIps)] compares one string literally
    with the entries of the list: the [x-forwarded-for] header when it is
    there and not empty, else the [x-real-ip] header when it is there and
    not empty, else the empty string; without headers at all it is the
    empty string too. *)
Theorem restrictedIpAccess_literal_match
  (allowedIps : list string) (get : string -> option string) :
  (restrictedIpAccess allowedIps (Some get) = Bool true <->
   In (match get "x-forwarded-for" with
       | Some (String a s) => String a s
       | _ => match get "x-real-ip" with
              | Some (String a s) => String a s
              | _ => ""
              end
       end) allowedIps) /\
  (restrictedIpAccess allowedIps None = Bool true <-> In "" allowedIps).
Proof.
  assert (Hmem : forall ip,
    Bool (existsb (fun allowed => strict_eq (Str allowed) (Str ip)) allowedIps) =
      Bool true <-> In ip allowedIps).
  { intros ip. split.
    - intros H. injection H as H. apply existsb_exists in H.
      destruct H as (x & Hx & Heq).
      change (strict_eq (Str x) (Str ip) = true) in Heq.
      apply strict_eq_Str in Heq.
      injection Heq as ->. exact Hx.
    - intros H. f_equal. apply existsb_exists. exists ip.
      split; [ exact H | apply (proj2 (strict_eq_Str ip (Str ip))); reflexivity ]. }
  unfold restrictedIpAccess, header, or_else. split.
  - destruct (get "x-forwarded-for") as [[| a s] |];
      destruct (get "x-real-ip") as [[| b t] |]; cbn [truthy String.eqb negb];
      apply Hmem.
  - cbn [truthy]. apply Hmem.
Qed.

End AccessFunctions.

(** ** The hooks and validators *)

Section HooksAndValidators.
Import Dyn Effects Hooks.

(** A string includes a one-character string exactly when the character
    occurs in it. *)
Lemma str_includes_char (c : ascii) (s : string) :
  str_includes (String c "") s = true <-> In c (list_ascii_of_string s).
Proof.
  induction s as [| a s IH]; cbn [str_includes starts_with list_ascii_of_string].
  - cbn. split; [ discriminate | tauto ].
  - rewrite Bool.orb_true_iff, IH. cbn [In].
    assert (Hhead : Ascii.eqb c a && starts_with "" s = true <-> a = c).
    { destruct s; cbn [starts_with]; rewrite Bool.andb_true_r;
        rewrite Ascii.eqb_eq; split; congruence. }
    rewrite Hhead. tauto.
Qed.

(** Reading a property either throws or goes on with the property. *)
Lemma member_cases (v : val) (k : string) (cont : val -> prog) :
  member v k cont = Throw TypeError \/ member v k cont = cont (get k v).
Proof. destruct v; cbn; auto. Qed.

Ltac member_step :=
  match goal with
  | |- context [member ?v ?k ?c] =>
      destruct (member_cases v k c) as [Hm | Hm]; rewrite Hm; clear Hm
  end.

(** X14: the [email] validator answers [true] exactly when the value is a
    non-empty string with an [@] in it, or when the value is empty or
    missing and the operation is not [create]; any other input gets one of
    the two messages.  So an update may blank the address, and [@] alone
    passes. *)
Theorem email_validate_accepts (value : option string) (operation : string) :
  (email_validate value operation = Bool true <->
   match value with
   | Some (String a s) => In "@"%char (list_ascii_of_string (String a s))
   | _ => operation <> "create"
   end) /\
  (email_validate value operation = Bool true \/
   email_validate value operation = Str "メールアドレスは必須です" \/
   email_validate value operation = Str "メールアドレスの形式が正しくありません").
Proof.
  unfold email_validate.
  destruct value as [[| a s] |]; cbn [truthy String.eqb negb andb].
  - destruct (String.eqb operation "create") eqn:Hop; cbn.
    + apply String.eqb_eq in Hop. split; [ | auto ].
      split; [ discriminate | congruence ].
    + apply String.eqb_neq in Hop. split; [ | auto ]. tauto.
  - rewrite Bool.andb_false_r. cbn [andb].
    rewrite <- str_includes_char.
    destruct (str_includes "@" (String a s)); cbn; split; auto;
      split; congruence.
  - destruct (String.eqb operation "create") eqn:Hop; cbn.
    + apply String.eqb_eq in Hop. split; [ | auto ].
      split; [ discriminate | congruence ].
    + apply String.eqb_neq in Hop. split; [ | auto ]. tauto.
Qed.

(** X18: the [afterChange] hook of Posts notifies at most once, and only
    for a [create] whose context does not carry a truthy
    [skipNotification]; with the flag set it returns [undefined], not the
    document, and calls nothing. *)
Theorem Posts_afterChange_notifies_on_create
  (W : Type) (env : world W) (w : W)
  (doc : val) (context : list (string * val)) (operation : string) :
  calls_to "sendNotification"
    (run env (Posts_afterChange doc (Obj context) operation) w) =
    (if negb (truthy (get "skipNotification" (Obj context)))
        && String.eqb operation "create"
     then [ [ doc ] ] else []) /\
  (if truthy (get "skipNotification" (Obj context))
   then run env (Posts_afterChange doc (Obj context) operation) w =
          {| result := inl Undefined; final := w; trace := [] |}
   else match result (run env (Posts_afterChange doc (Obj context) operation) w) with
        | inl v => v = doc
        | inr e => exists reason, e = Rejected reason
        end).
Proof.
  unfold Posts_afterChange. cbn [member].
  destruct (truthy (get "skipNotification" (Obj context))); cbn [negb andb].
  - split; reflexivity.
  - destruct (String.eqb operation "create"); cbn [run].
    + destruct (env "sendNotification" [ doc ] w) as [[x | reason] w1]; cbn;
        (split; [ reflexivity | ]); [ reflexivity | eexists; reflexivity ].
    + cbn. split; reflexivity.
Qed.

(** X19: the [beforeChange] hook of [publishedOn] reads the clock exactly
    when the sibling data is published and the value is falsy; in every
    other case it hands the value back untouched, so a date that is already
    there is never overwritten. *)
Theorem publishedOn_keeps_existing_date
  (W : Type) (env : world W) (w : W)
  (siblingData : list (string * val)) (value : val) :
  trace (run env (publishedOn_beforeChange (Obj siblingData) value) w) =
    (if strict_eq (get "_status" (Obj siblingData)) (Str "published")
        && negb (truthy value)
     then [ ("new Date", []) ] else []) /\
  (if truthy value
   then run env (publishedOn_beforeChange (Obj siblingData) value) w =
          {| result := inl value; final := w; trace := [] |}
   else True).
Proof.
  unfold publishedOn_beforeChange. cbn [member].
  destruct (truthy value); cbn [negb].
  - rewrite Bool.andb_false_r. split; reflexivity.
  - rewrite Bool.andb_true_r.
    destruct (strict_eq (get "_status" (Obj siblingData)) (Str "published"));
      cbn [run].
    + destruct (env "new Date" [] w) as [[x | reason] w1]; cbn; split; auto.
    + cbn. split; auto.
Qed.

Section Revalidation.
Variable ToString : val -> string.

(** X15: with [context.disableRevalidate] set to a truthy value,
    [revalidatePage] calls nothing (no log line, no revalidation) and
    hands the document back. *)
Theorem revalidatePage_disabled
  (W : Type) (env : world W) (w : W) (doc previousDoc context : val) :
  truthy (get "disableRevalidate" context) = true ->
  run env (revalidatePage ToString doc previousDoc context) w =
    {| result := inl doc; final := w; trace := [] |}.
Proof.
  intros Hflag. unfold revalidatePage.
  destruct context; try discriminate Hflag.
  cbn [member]. rewrite Hflag. reflexivity.
Qed.

(** X16: whatever the documents, the context and the world, one run of
    [revalidatePage] revalidates at most one path and writes at most one
    log line, and it never logs without going on to revalidate unless the
    logger itself rejects. *)
Theorem revalidatePage_at_most_one_path
  (W : Type) (env : world W) (w : W) (doc previousDoc context : val) :
  length (calls_to "revalidatePath"
            (run env (revalidatePage ToString doc previousDoc context) w)) <= 1 /\
  length (calls_to "payload.logger.info"
            (run env (revalidatePage ToString doc previousDoc context) w)) <= 1 /\
  Forall (fun c => fst c = "payload.logger.info" \/ fst c = "revalidatePath")
    (trace (run env (revalidatePage ToString doc previousDoc context) w)).
Proof.
  unfold revalidatePage.
  member_step; [ cbn; repeat split; auto; constructor | ].
  destruct (truthy (get "disableRevalidate" context)); cbn [negb];
    [ cbn; repeat split; auto; constructor | ].
  member_step; [ cbn; repeat split; auto; constructor | ].
  destruct (strict_eq (get "_status" doc) (Str "published")).
  - rewrite Bool.andb_false_r.
    member_step; [ cbn; repeat split; auto; constructor | ].
    cbn [run].
    destruct (env "payload.logger.info" _ w) as [[x | reason] w1];
      [ | cbn; repeat split; auto; forall_list ].
    cbn [run].
    destruct (env "revalidatePath" _ w1) as [[y | reason] w2];
      cbn; repeat split; auto; forall_list.
  - rewrite Bool.andb_true_r.
    destruct (strict_eq (optional "_status" previousDoc) (Str "published"));
      [ | cbn; repeat split; auto; constructor ].
    member_step; [ cbn; repeat split; auto; constructor | ].
    cbn [run].
    destruct (env "revalidatePath" _ w) as [[y | reason] w2];
      cbn; repeat split; auto; forall_list.
Qed.

(** X17: when a page that was published stops being published,
    [revalidatePage] revalidates the page's old path, [/] for the slug
    [home], without a log line, and hands the document back. *)
Theorem revalidatePage_unpublish
  (W : Type) (env : world W) (w w1 : W)
  (doc previous context : list (string * val)) (answer : val) :
  truthy (get "disableRevalidate" (Obj context)) = false ->
  get "_status" (Obj previous) = Str "published" ->
  strict_eq (get "_status" (Obj doc)) (Str "published") = false ->
  env "revalidatePath" [ Str (page_path ToString (get "slug" (Obj previous))) ] w =
    (inl answer, w1) ->
  run env (revalidatePage ToString (Obj doc) (Obj previous) (Obj context)) w =
    {| result := inl (Obj doc);
       final := w1;
       trace := [ ("revalidatePath",
                    [ Str (page_path ToString (get "slug" (Obj previous))) ]) ] |} /\
  (get "slug" (Obj previous) = Str "home" ->
   page_path ToString (get "slug" (Obj previous)) = "/").
Proof.
  intros Hflag Hprev Hdoc Hcall. split.
  - unfold revalidatePage. cbn [member]. rewrite Hflag. cbn [negb].
    rewrite Hdoc. cbn [optional]. rewrite Hprev.
    replace (strict_eq (Str "published") (Str "published")) with true
      by reflexivity.
    cbn [negb andb run]. rewrite Hcall. reflexivity.
  - intros Hslug. rewrite Hslug. reflexivity.
Qed.

End Revalidation.

End HooksAndValidators.

(** ** The statements at a concrete world *)

Section AtSampleWorld.
Import Dyn Effects Handlers Access Hooks.

(** A request without a user is refused before anything is called. *)
Lemma protectedEndpoint_refuses_null_user :
  truthy Null = false /\
  run SampleWorld.quiet
    (protectedEndpoint {| user := Null; routeParams := Obj []; url := Str "/" |}) 0 =
    {| result := inr (APIError "Unauthorized" 401); final := 0; trace := [] |}.
Proof.
  split; [ reflexivity | ].
  apply (protectedEndpoint_rejects_anonymous nat SampleWorld.quiet 0
           {| user := Null; routeParams := Obj []; url := Str "/" |}).
  reflexivity.
Defined.

(** A tracking number nobody knows is answered with 404. *)
Lemma trackingEndpoint_unknown_id :
  trace (run SampleWorld.quiet
           (trackingEndpoint
              {| user := Null; routeParams := Obj [ ("id", Str "42") ]; url := Str "/" |})
           0) =
    [ ("getTrackingInfo", [ Str "42" ]);
      ("Response.json",
        [ Obj [ ("error", Str "not found") ]; Obj [ ("status", Num 404) ] ]) ].
Proof.
  apply (trackingEndpoint_not_found_iff_no_tracking nat SampleWorld.quiet 0 1
           {| user := Null; routeParams := Obj [ ("id", Str "42") ]; url := Str "/" |}
           [ ("id", Str "42") ] Null);
    reflexivity.
Defined.

(** A body with an empty address is refused with 400. *)
Lemma validateEndpoint_empty_email :
  result (run (SampleWorld.posting (Obj [ ("email", Str "") ]))
            (validateEndpoint {| user := Null; routeParams := Obj []; url := Str "/" |})
            0) =
    inr (APIError "メールアドレスは必須です" 400).
Proof.
  apply (proj1 (validateEndpoint_outcome nat
                  (SampleWorld.posting (Obj [ ("email", Str "") ])) 0 1
                  {| user := Null; routeParams := Obj []; url := Str "/" |}
                  (Obj [ ("email", Str "") ]) eq_refl)).
Defined.

(** An editor let in by the editors' list stays in when admins are added. *)
Lemma editor_stays_in_when_admins_are_added :
  createRoleBasedAccess [ "admin"; "editor" ] (Some SampleWorld.alice) = Bool true.
Proof.
  apply (createRoleBasedAccess_monotone [ "editor" ] [ "admin"; "editor" ]
           (Some SampleWorld.alice)).
  - intros r [<- | []]. right. left. reflexivity.
  - reflexivity.
Defined.

(** An editor is confined to the tenant the hook would stamp. *)
Lemma editor_confined_to_own_tenant :
  tenantAccess (Some SampleWorld.alice) =
    Obj [ ("tenant", Obj [ ("equals", Str "t1") ]) ].
Proof.
  apply (proj1 (tenant_stamp_matches_constraint SampleWorld.alice "update" Null
                  eq_refl)).
Defined.

(** An editor may update their own user document. *)
Lemma editor_updates_own_document :
  SelfServiceCollection_update (Some SampleWorld.alice) (Str "u1") = Bool true.
Proof.
  apply (proj2 (proj1 (SelfServiceCollection_update_own_only SampleWorld.alice
                         (Str "u1") eq_refl))).
  reflexivity.
Defined.

(** A seeding script that disables revalidation triggers none. *)
Lemma revalidatePage_disabled_by_flag :
  run SampleWorld.quiet
    (revalidatePage SampleWorld.to_string
       (Obj [ ("_status", Str "published"); ("slug", Str "home") ])
       Undefined
       (Obj [ ("disableRevalidate", Bool true) ])) 0 =
    {| result := inl (Obj [ ("_status", Str "published"); ("slug", Str "home") ]);
       final := 0;
       trace := [] |}.
Proof.
  apply (revalidatePage_disabled SampleWorld.to_string nat SampleWorld.quiet 0).
  reflexivity.
Defined.

(** Taking the [about] page back to draft revalidates [/about]. *)
Lemma revalidatePage_about_unpublished :
  trace (run SampleWorld.quiet
           (revalidatePage SampleWorld.to_string
              (Obj [ ("_status", Str "draft"); ("slug", Str "about") ])
              (Obj [ ("_status", Str "published"); ("slug", Str "about") ])
              (Obj [])) 0) =
    [ ("revalidatePath", [ Str "/about" ]) ].
Proof.
  rewrite (proj1 (revalidatePage_unpublish SampleWorld.to_string nat
                    SampleWorld.quiet 0 1
                    [ ("_status", Str "draft"); ("slug", Str "about") ]
                    [ ("_status", Str "published"); ("slug", Str "about") ]
                    [] Null eq_refl eq_refl eq_refl eq_refl)).
  reflexivity.
Defined.

End AtSampleWorld.
